(** * Bayesian accuracy estimation notebook ([model_evaluation.ipynb])

    The notebook is glue code around two libraries: it defines a five-line
    generative model through [pyro.sample] statements and hands it to
    Pyro's HMC/MCMC sampler.  The development below embeds the notebook
    as Python computations that issue calls to those libraries:

    - [Python]  computations, exceptions, calls and their execution
                against a handler that plays the library;
    - [Model]   the cell defining [model(y)];
    - [Notebook] the seed, data, inference and analysis cells;
    - [Observations] the cell that turns predictions into tensors;
    - [Reference] a small executable instance of the library interface,
                used to run the cells on concrete inputs;
    - [Fallible] execution against a library whose calls may fail;
    - [Resampling] [get_samples] as the spec describes it.

    Floats are the kernel's binary64 numbers, so the literals [0.1] and
    [0.95] denote the same values as in Python. *)

From Stdlib Require Import PrimFloat Uint63 ZArith String List Lia Bool.
From Stdlib Require Import DecimalString DecimalNat FinFun Permutation.
From ExtLib Require Import Structures.Monad.
Import ListNotations MonadNotation.

Set Warnings "-inexact-float".
Local Open Scope monad_scope.
Local Open Scope string_scope.
Local Open Scope list_scope.

(* ===================================================================== *)
(** * Python computations over library calls *)
(* ===================================================================== *)

Module Python.

(** The exceptions the notebook's own statements can raise: indexing a
    tensor, indexing a dict, and [assert]. *)
Inductive exn : Type :=
| IndexError
| KeyError
| AssertionError.

(** A library is seen through its signature: the calls a program may
    issue and, for each call, the type of what the library returns. *)
Record signature : Type := {
  call : Type;
  reply : call -> Type
}.

(** A computation returns, raises, or issues a call and continues with
    what the library returned. *)
Inductive prog (Sg : signature) (A : Type) : Type :=
| Ret (a : A)
| Raise (e : exn)
| Call (c : call Sg) (k : reply Sg c -> prog Sg A).

Arguments Ret {Sg A} a.
Arguments Raise {Sg A} e.
Arguments Call {Sg A} c k.

Fixpoint pbind {Sg : signature} {A B : Type}
    (p : prog Sg A) (f : A -> prog Sg B) : prog Sg B :=
  match p with
  | Ret a => f a
  | Raise e => Raise e
  | Call c k => Call c (fun r => pbind (k r) f)
  end.

#[export] Instance Monad_prog (Sg : signature) : Monad (prog Sg) := {
  ret := fun _ a => Ret a;
  bind := fun _ _ p f => pbind p f
}.

(** [lib.f(args)] *)
Definition invoke {Sg : signature} (c : call Sg) : prog Sg (reply Sg c) :=
  Call c (fun r => Ret r).

(** [assert b] *)
Definition assert {Sg : signature} (b : bool) : prog Sg unit :=
  if b then Ret tt else Raise AssertionError.

(** [for i in l: body(i)] *)
Fixpoint for_each {Sg : signature} (l : list nat)
    (body : nat -> prog Sg unit) : prog Sg unit :=
  match l with
  | [] => ret tt
  | i :: l' => body i ;; for_each l' body
  end.

(** [for i in range(n): body(i)] *)
Definition for_range {Sg : signature} (n : nat)
    (body : nat -> prog Sg unit) : prog Sg unit :=
  for_each (seq 0 n) body.

(** One-dimensional float tensors; [y[i]] raises out of range. *)
Definition tensor : Type := list float.

Definition len (y : tensor) : nat := length y.

Definition getitem {Sg : signature} (y : tensor) (i : nat) : prog Sg float :=
  match nth_error y i with
  | Some v => Ret v
  | None => Raise IndexError
  end.

(** ["obs_{}".format(i)] *)
Definition format (prefix : string) (i : nat) : string :=
  (prefix ++ NilEmpty.string_of_uint (Nat.to_uint i))%string.

(** ** Execution against a library

    A handler answers every call from the current state of the process
    and leaves a new state.  Executing a computation gives its result
    (an exception or a value), the final state, and the calls issued, in
    order. *)

Definition handler (Sg : signature) (W : Type) : Type :=
  forall c : call Sg, W -> reply Sg c * W.

Record outcome (Sg : signature) (W A : Type) : Type := {
  result : exn + A;
  final : W;
  calls : list (call Sg)
}.

Arguments result {Sg W A} o.
Arguments final {Sg W A} o.
Arguments calls {Sg W A} o.
Arguments Build_outcome {Sg W A} & result final calls.

Fixpoint exec {Sg : signature} {W A : Type}
    (h : handler Sg W) (p : prog Sg A) (w : W) : outcome Sg W A :=
  match p with
  | Ret a => {| result := inr a; final := w; calls := [] |}
  | Raise e => {| result := inl e; final := w; calls := [] |}
  | Call c k =>
      let rw := h c w in
      let o := exec h (k (fst rw)) (snd rw) in
      {| result := result o; final := final o; calls := c :: calls o |}
  end.

(** Sequencing: the second computation starts in the state the first one
    left, unless the first one raised. *)
Definition then_exec {Sg : signature} {W A B : Type} (h : handler Sg W)
    (o : outcome Sg W A) (f : A -> prog Sg B) : outcome Sg W B :=
  match result o with
  | inl e => {| result := inl e; final := final o; calls := calls o |}
  | inr a =>
      let o' := exec h (f a) (final o) in
      {| result := result o'; final := final o';
         calls := calls o ++ calls o' |}
  end.

End Python.

Import Python.

(* ===================================================================== *)
(** * The model cell *)
(* ===================================================================== *)

Module Model.

(** [pyro.distributions]: the two distributions the notebook builds. *)
Inductive distribution : Type :=
| Uniform (low high : float)
| Bernoulli (probs : float).

(** A [pyro.sample(name, fn, obs=...)] statement. *)
Record site : Type := {
  name : string;
  fn : distribution;
  obs : option float
}.

(** Pyro as seen from inside a model: sample statements, each answered
    with a float. *)
Definition pyro : signature := {| call := site; reply := fun _ => float |}.

Definition pyro_sample (name : string) (fn : distribution)
    (obs : option float) : prog pyro float :=
  invoke (Sg := pyro) {| name := name; fn := fn; obs := obs |}.

(** [def model(y)] *)
Definition model (y : tensor) : prog pyro unit :=
  underlying_p <- pyro_sample "p" (Uniform 0.0 1.0) None ;;
  for_range (len y) (fun i =>
    let y_hidden_dist := Bernoulli underlying_p in
    y_i <- getitem y i ;;
    y_real <- pyro_sample (format "obs_" i) y_hidden_dist (Some y_i) ;;
    ret tt).

(** The body of the loop of [model], for index [i] and the drawn [p]. *)
Definition loop_body (y : tensor) (underlying_p : float) (i : nat)
    : prog pyro unit :=
  let y_hidden_dist := Bernoulli underlying_p in
  y_i <- getitem y i ;;
  y_real <- pyro_sample (format "obs_" i) y_hidden_dist (Some y_i) ;;
  ret tt.

(** The sample statement of observation [i] under parameter value [p]. *)
Definition obs_site (p : float) (iy : nat * float) : site :=
  {| name := format "obs_" (fst iy);
     fn := Bernoulli p;
     obs := Some (snd iy) |}.

Definition prior_site : site :=
  {| name := "p"; fn := Uniform 0.0 1.0; obs := None |}.

(** A site is latent when it carries no observation. *)
Definition latent (s : site) : bool :=
  match obs s with
  | None => true
  | Some _ => false
  end.

End Model.

Import Model.

(* ===================================================================== *)
(** * The notebook cells *)
(* ===================================================================== *)

Module Notebook.

(** [HMC(model, step_size=...)]: the kernel object. *)
Record HMC : Type := {
  hmc_model : tensor -> prog pyro unit;
  step_size : float
}.

(** [MCMC(kernel, num_samples=..., warmup_steps=...)]: the sampler
    object. *)
Record MCMC : Type := {
  kernel : HMC;
  num_samples : Z;
  warmup_steps : Z
}.

(** What [get_samples] returns: draws per sample site. *)
Definition sample_dict : Type := list (string * tensor).

(** Every library call the cells make.  [load_observations] stands for
    the scikit-learn cells (fetch, split, fit, predict, compare), which
    end by binding the two correctness tensors. *)
Inductive nb_call : Type :=
| pyro_set_rng_seed (rng_seed : Z)
| pyro_version
| load_observations
| pyro_clear_param_store
| mcmc_run (mcmc : MCMC) (args : tensor)
| mcmc_get_samples (mcmc : MCMC) (n : Z)
| plt_figure (width height : Z)
| sns_distplot (a : tensor) (color : string)
| plt_xlabel (xlabel : string)
| plt_ylabel (ylabel : string)
| plt_show
| mcmc_summary (mcmc : MCMC) (prob : float).

Definition nb_reply (c : nb_call) : Type :=
  match c with
  | pyro_version => string
  | load_observations => (tensor * tensor)%type
  | mcmc_get_samples _ _ => sample_dict
  | _ => unit
  end.

Definition libs : signature := {| call := nb_call; reply := nb_reply |}.

Definition nb : Type -> Type := prog libs.

(** [d[key]] on a dict; raises [KeyError] when the key is absent. *)
Fixpoint lookup (key : string) (d : sample_dict) : option tensor :=
  match d with
  | [] => None
  | (k, v) :: d' => if String.eqb key k then Some v else lookup key d'
  end.

Definition getkey (d : sample_dict) (key : string) : nb tensor :=
  match lookup key d with
  | Some v => Ret v
  | None => Raise KeyError
  end.

(** Cell 2: [pyro.set_rng_seed(102563)] and the version assertion. *)
Definition seed_cell : nb unit :=
  invoke (Sg := libs) (pyro_set_rng_seed 102563) ;;
  v <- invoke (Sg := libs) pyro_version ;;
  assert (String.prefix "1.5.0" v).

(** Cells 3 to 9: data set, classifier and the correctness tensors
    [(correctness_values_100, correctness_values)]. *)
Definition data_cells : nb (tensor * tensor) :=
  invoke (Sg := libs) load_observations.

(** The inference cell.  The notebook writes the literals [0.1], [100]
    and [100] and the tensor [correctness_values_100]; they are the
    parameters here. *)
Definition inference_cell (step : float) (samples warmup : Z)
    (y : tensor) : nb MCMC :=
  invoke (Sg := libs) pyro_clear_param_store ;;
  let hmc_kernel := {| hmc_model := model; step_size := step |} in
  let mcmc := {| kernel := hmc_kernel; num_samples := samples;
                 warmup_steps := warmup |} in
  invoke (Sg := libs) (mcmc_run mcmc y) ;;
  ret mcmc.

(** The analysis cell.  The notebook writes [5000] and [0.95]. *)
Definition analysis_cell (mcmc : MCMC) (requested : Z) (prob : float)
    : nb sample_dict :=
  sample_dict <- invoke (Sg := libs) (mcmc_get_samples mcmc requested) ;;
  invoke (Sg := libs) (plt_figure 10 7) ;;
  p <- getkey sample_dict "p" ;;
  invoke (Sg := libs) (sns_distplot p "orange") ;;
  invoke (Sg := libs) (plt_xlabel "Observed probability value") ;;
  invoke (Sg := libs) (plt_ylabel "Observed frequency") ;;
  invoke (Sg := libs) plt_show ;;
  invoke (Sg := libs) (mcmc_summary mcmc prob) ;;
  ret sample_dict.

(** The configuration of an estimation: the four numbers of the
    inference cell and the two of the analysis cell. *)
Record config : Type := {
  cfg_step_size : float;
  cfg_num_samples : Z;
  cfg_warmup_steps : Z;
  cfg_requested : Z;
  cfg_prob : float
}.

Definition notebook_config : config :=
  {| cfg_step_size := 0.1;
     cfg_num_samples := 100;
     cfg_warmup_steps := 100;
     cfg_requested := 5000;
     cfg_prob := 0.95 |}.

(** Inference followed by analysis: one run of the estimator on the
    observations [y], returning the posterior sample sequence. *)
Definition estimator (cfg : config) (y : tensor) : nb sample_dict :=
  mcmc <- inference_cell (cfg_step_size cfg) (cfg_num_samples cfg)
            (cfg_warmup_steps cfg) y ;;
  analysis_cell mcmc (cfg_requested cfg) (cfg_prob cfg).

(** The notebook, top to bottom. *)
Definition notebook : nb sample_dict :=
  seed_cell ;;
  data <- data_cells ;;
  let correctness_values_100 := fst data in
  estimator notebook_config correctness_values_100.

(** Running the same cells again in the same process, [n] times. *)
Fixpoint rerun {A : Type} (n : nat) (cells : nb A) : nb (list A) :=
  match n with
  | O => ret []
  | S n' => a <- cells ;; rest <- rerun n' cells ;; ret (a :: rest)
  end.

(** A process that runs the seed and data cells once and then the
    estimator cells [n] times on [correctness_values_100]. *)
Definition session (cfg : config) (n : nat) : nb (list sample_dict) :=
  seed_cell ;;
  data <- data_cells ;;
  let correctness_values_100 := fst data in
  rerun n (estimator cfg correctness_values_100).

(** ** The libraries, as far as the cells depend on them

    Pyro keeps two pieces of process-wide state: the random-number
    generator that [set_rng_seed] resets, and the parameter store that
    [clear_param_store] empties.  The sampler object keeps the draws it
    retained.  What the sampler computes from them is the library's
    business and stays a parameter. *)
Class PyroLib : Type := {
  RNG : Type;
  ParamStore : Type;
  (** the generator state [set_rng_seed] installs *)
  seed_rng : Z -> RNG;
  (** the store [clear_param_store] leaves *)
  empty_store : ParamStore;
  (** [pyro.__version__] *)
  version : string;
  (** the scikit-learn cells *)
  observations : RNG -> (tensor * tensor) * RNG;
  (** [mcmc.run(y)]: the draws retained by the chain *)
  sampler : MCMC -> tensor -> RNG -> ParamStore ->
            sample_dict * RNG * ParamStore;
  (** [mcmc.get_samples(num_samples=n)] *)
  resample : sample_dict -> Z -> RNG -> sample_dict * RNG
}.

Record process {L : PyroLib} : Type := {
  rng : RNG;
  param_store : ParamStore;
  retained : sample_dict
}.

(** Each call as a transformer of the process state.  [set_rng_seed]
    overwrites the generator and [clear_param_store] the store; the
    scikit-learn cells and [get_samples] draw from the generator;
    [mcmc.run] reads generator and store and leaves both, together with
    the draws it retained; the version, plotting and summary calls leave
    the state as it is.  Calls are taken to return here; executions in
    which a library call fails are the subject of [Fallible]. *)
Definition library (L : PyroLib) : handler libs process :=
  fun c =>
    match c as c0 return process -> nb_reply c0 * process with
    | pyro_set_rng_seed rng_seed => fun w =>
        (tt, {| rng := seed_rng rng_seed;
                param_store := param_store w;
                retained := retained w |})
    | pyro_version => fun w => (version, w)
    | load_observations => fun w =>
        let r := observations (rng w) in
        (fst r, {| rng := snd r;
                   param_store := param_store w;
                   retained := retained w |})
    | pyro_clear_param_store => fun w =>
        (tt, {| rng := rng w;
                param_store := empty_store;
                retained := retained w |})
    | mcmc_run mcmc args => fun w =>
        let r := sampler mcmc args (rng w) (param_store w) in
        (tt, {| rng := snd (fst r);
                param_store := snd r;
                retained := fst (fst r) |})
    | mcmc_get_samples mcmc n => fun w =>
        let r := resample (retained w) n (rng w) in
        (fst r, {| rng := snd r;
                   param_store := param_store w;
                   retained := retained w |})
    | plt_figure _ _ => fun w => (tt, w)
    | sns_distplot _ _ => fun w => (tt, w)
    | plt_xlabel _ => fun w => (tt, w)
    | plt_ylabel _ => fun w => (tt, w)
    | plt_show => fun w => (tt, w)
    | mcmc_summary _ _ => fun w => (tt, w)
    end.

(** Executing cells against a library. *)
Definition run {L : PyroLib} {A : Type} (cells : nb A) (w : process)
    : outcome libs process A :=
  exec (library L) cells w.

(** The process state the sampler leaves when started from generator
    state [g] on an empty parameter store. *)
Definition after_sampling {L : PyroLib} (mcmc : MCMC) (y : tensor)
    (g : RNG) : process :=
  let r := sampler mcmc y g empty_store in
  {| rng := snd (fst r); param_store := snd r; retained := fst (fst r) |}.

(** Classifying calls. *)
Definition is_seed (c : nb_call) : bool :=
  match c with
  | pyro_set_rng_seed _ => true
  | _ => false
  end.

Definition is_run (c : nb_call) : bool :=
  match c with
  | mcmc_run _ _ => true
  | _ => false
  end.

End Notebook.

Import Notebook.

(* ===================================================================== *)
(** * The observations cell *)
(* ===================================================================== *)

(** The cell headed "define our observations": predictions are compared
    with the test labels, and the boolean arrays become float tensors. *)
Module Observations.

(** MNIST labels as [fetch_openml] delivers them. *)
Definition label : Type := string.

(** [a == b] on two label arrays: elementwise when they have as many
    entries; an array of one entry is broadcast against the other.  For
    other shapes there is no elementwise result and the cell has no
    array to convert: [None]. *)
Definition array_eq (a b : list label) : option (list bool) :=
  if Nat.eqb (length a) (length b)
  then Some (map (fun xv => String.eqb (fst xv) (snd xv)) (combine a b))
  else match a, b with
       | [x], _ => Some (map (fun v => String.eqb x v) b)
       | _, [v] => Some (map (fun x => String.eqb x v) a)
       | _, _ => None
       end.

(** [torch.from_numpy(a).float()] on a boolean array. *)
Definition from_numpy_float (a : list bool) : tensor :=
  map (fun b : bool => if b then 1%float else 0%float) a.

Section Cell.

Variable features : Type.

(** The fitted classifier, which labels each row by itself. *)
Variable my_tree : features -> label.

(** [my_tree.predict(X)] *)
Definition predict (X : list features) : list label := map my_tree X.

(** The cell: both correctness tensors, or [None] when a comparison
    gives no array to convert and the cell raises. *)
Definition define_observations
    (X_100_test : list features) (y_100_test : list label)
    (X_test : list features) (y_test : list label)
    : option (tensor * tensor) :=
  let y_100_pred := predict X_100_test in
  match array_eq y_100_pred y_100_test with
  | None => None
  | Some correctness_values_100 =>
      let y_pred := predict X_test in
      match array_eq y_pred y_test with
      | None => None
      | Some correctness_values =>
          Some (from_numpy_float correctness_values_100,
                from_numpy_float correctness_values)
      end
  end.

(** [1.0] when the prediction for the example is its label, else [0.0]. *)
Definition indicator (example : features * label) : float :=
  if String.eqb (my_tree (fst example)) (snd example)
  then 1%float else 0%float.

(** Whether the prediction for the example is its label. *)
Definition correct (example : features * label) : bool :=
  String.eqb (my_tree (fst example)) (snd example).

End Cell.

End Observations.

Import Observations.

(** A statement conditioned on the value [1.0]. *)
Definition is_success (s : site) : bool :=
  match obs s with
  | Some v => PrimFloat.eqb v 1%float
  | None => false
  end.

(** What a sample statement says apart from its name. *)
Definition payload (s : site) : distribution * option float :=
  (fn s, obs s).

(* ===================================================================== *)
(** * A reference instance of the library interface *)
(* ===================================================================== *)

(** A small executable library: a linear congruential generator, a
    random-walk Metropolis sampler that scores a candidate parameter by
    running the model, and two resampling policies.  It is not Pyro; it
    serves to run the cells on concrete inputs. *)
Module Reference.

Local Open Scope float_scope.

Definition modulus : Z := 2147483648.

Definition next (g : Z) : Z := ((1103515245 * g + 12345) mod modulus)%Z.

Definition float_of_Z (z : Z) : float := of_uint63 (Uint63.of_Z z).

Definition uniform01 (g : Z) : float * Z :=
  let g' := next g in
  (float_of_Z g' / float_of_Z modulus, g').

Definition density (d : distribution) (v : float) : float :=
  match d with
  | Uniform low high =>
      if (low <=? v) && (v <=? high) then 1 / (high - low) else 0
  | Bernoulli probs => v * probs + (1 - v) * (1 - probs)
  end.

(** Runs a model at a candidate value: latent sites are answered with
    the candidate, observed sites with their observation, and the state
    accumulates the joint density. *)
Definition score (candidate : float) : handler pyro float :=
  fun s acc =>
    let v := match obs s with
             | Some o => o
             | None => candidate
             end in
    (v, acc * density (fn s) v).

Definition joint (k : HMC) (y : tensor) (candidate : float) : float :=
  final (exec (score candidate) (hmc_model k y) 1).

Definition step (k : HMC) (y : tensor) (st : float * Z) : float * Z :=
  let cur := fst st in
  let d1 := uniform01 (snd st) in
  let d2 := uniform01 (snd d1) in
  let proposal := cur + step_size k * (2 * fst d1 - 1) in
  if fst d2 * joint k y cur <? joint k y proposal
  then (proposal, snd d2)
  else (cur, snd d2).

Fixpoint warm (n : nat) (k : HMC) (y : tensor) (st : float * Z)
    : float * Z :=
  match n with
  | O => st
  | S n' => warm n' k y (step k y st)
  end.

Fixpoint collect (n : nat) (k : HMC) (y : tensor) (st : float * Z)
    : tensor * (float * Z) :=
  match n with
  | O => ([], st)
  | S n' =>
      let st' := step k y st in
      let r := collect n' k y st' in
      (fst st' :: fst r, snd r)
  end.

(** The sampler of the reference library.  It takes any step size and
    reads counts below zero as zero; it never fails. *)
Definition metropolis (m : MCMC) (y : tensor) (g : Z)
    (store : list (string * float))
    : sample_dict * Z * list (string * float) :=
  let st0 := warm (Z.to_nat (warmup_steps m)) (kernel m) y (0.5, g) in
  let r := collect (Z.to_nat (num_samples m)) (kernel m) y st0 in
  ([("p"%string, fst r)], snd (snd r), store).

Fixpoint randint (n : nat) (bound : Z) (g : Z) : list nat * Z :=
  match n with
  | O => ([], g)
  | S n' =>
      let g' := next g in
      let r := randint n' bound g' in
      (Z.to_nat (g' mod bound) :: fst r, snd r)
  end.

Definition index_select (t : tensor) (idxs : list nat) : tensor :=
  map (fun i => nth i t 0) idxs.

Definition batch_size (d : sample_dict) : Z :=
  match d with
  | [] => 0
  | kv :: _ => Z.of_nat (length (snd kv))
  end.

(** [n] positions of the chain drawn uniformly, with replacement. *)
Definition with_replacement (d : sample_dict) (n : Z) (g : Z)
    : sample_dict * Z :=
  let r := randint (Z.to_nat n) (batch_size d) g in
  (map (fun kv => (fst kv, index_select (snd kv) (fst r))) d, snd r).

Definition toy_observations (g : Z) : (tensor * tensor) * Z :=
  (([1; 1; 0; 1], [1; 1; 0; 1; 1; 0; 1; 1]), next g).

(** The library with a given resampling policy behind [get_samples]. *)
Definition lib_with (policy : sample_dict -> Z -> Z -> sample_dict * Z)
    : PyroLib :=
  {| RNG := Z;
     ParamStore := list (string * float);
     seed_rng := fun s => s;
     empty_store := [];
     version := "1.5.0";
     observations := toy_observations;
     sampler := metropolis;
     resample := policy |}.

Definition lib : PyroLib := lib_with with_replacement.

(** A process state to start from: some generator state, a stale
    parameter left in the store, nothing retained. *)
Definition boot_with (policy : sample_dict -> Z -> Z -> sample_dict * Z)
    : @process (lib_with policy) :=
  @Build_process (lib_with policy) 7%Z [("stale"%string, 3)] [].

Definition boot : @process lib := boot_with with_replacement.

(** A small configuration, for runs that are evaluated in proofs. *)
Definition small : config :=
  {| cfg_step_size := 0.1;
     cfg_num_samples := 3;
     cfg_warmup_steps := 2;
     cfg_requested := 5;
     cfg_prob := 0.95 |}.

End Reference.

(** Whether two sequences of draws hold the same values in order. *)
Fixpoint same_draws (s t : tensor) : bool :=
  match s, t with
  | [], [] => true
  | x :: s', v :: t' => PrimFloat.eqb x v && same_draws s' t'
  | _, _ => false
  end.

(** The draws of [p] in a dict ([[]] when the site is absent). *)
Definition draws_of_p (d : sample_dict) : tensor :=
  match lookup "p" d with
  | Some t => t
  | None => []
  end.

(** A process that first fixes the seed to [rng_seed] and then runs the
    given cells. *)
Definition seeded {A : Type} (rng_seed : Z) (cells : nb A) : nb A :=
  invoke (Sg := libs) (pyro_set_rng_seed rng_seed) ;;
  cells.

(** The observations used in evaluated runs. *)
Definition y4 : tensor := [1%float; 1%float; 0%float; 1%float].

(** Whether an execution invoked the sampler, and whether it ended in
    an exception. *)
Definition sampler_invoked {W A : Type} (o : outcome libs W A) : bool :=
  existsb is_run (calls o).

Definition raised {Sg : signature} {W A : Type} (o : outcome Sg W A)
    : bool :=
  match result o with
  | inl _ => true
  | inr _ => false
  end.

(** A configuration with another number of requested draws. *)
Definition with_requested (cfg : config) (requested : Z) : config :=
  {| cfg_step_size := cfg_step_size cfg;
     cfg_num_samples := cfg_num_samples cfg;
     cfg_warmup_steps := cfg_warmup_steps cfg;
     cfg_requested := requested;
     cfg_prob := cfg_prob cfg |}.

(** The sampler object the inference cell builds. *)
Definition mcmc_of (step : float) (samples warmup : Z) : MCMC :=
  {| kernel := {| hmc_model := model; step_size := step |};
     num_samples := samples;
     warmup_steps := warmup |}.

(* ===================================================================== *)
(** * Library calls that may fail *)
(* ===================================================================== *)

(** Execution against a library whose calls may fail with an exception
    of the library's own.  An execution then ends in one of three ways:
    it returns, one of the notebook's own statements raises, or a
    library call fails. *)
Module Fallible.

Inductive ending (Sg : signature) (A : Type) : Type :=
| Returned (a : A)
| Raised (e : exn)
| Failed (c : call Sg).

Arguments Returned {Sg A} a.
Arguments Raised {Sg A} e.
Arguments Failed {Sg A} c.

(** A handler answers a call with a reply, or with [None] when the call
    fails. *)
Definition handler (Sg : signature) (W : Type) : Type :=
  forall c : call Sg, W -> option (reply Sg c) * W.

Record outcome (Sg : signature) (W A : Type) : Type := {
  ended : ending Sg A;
  state : W;
  issued : list (call Sg)
}.

Arguments ended {Sg W A} o.
Arguments state {Sg W A} o.
Arguments issued {Sg W A} o.
Arguments Build_outcome {Sg W A} & ended state issued.

Fixpoint exec {Sg : signature} {W A : Type}
    (h : handler Sg W) (p : prog Sg A) (w : W) : outcome Sg W A :=
  match p with
  | Ret a => {| ended := Returned a; state := w; issued := [] |}
  | Raise e => {| ended := Raised e; state := w; issued := [] |}
  | Call c k =>
      match fst (h c w) with
      | Some r =>
          let o := exec h (k r) (snd (h c w)) in
          {| ended := ended o; state := state o; issued := c :: issued o |}
      | None =>
          {| ended := Failed c; state := snd (h c w); issued := [c] |}
      end
  end.

End Fallible.

(* ===================================================================== *)
(** * Resampling from the retained chain *)
(* ===================================================================== *)

Module Resampling.

(** Modelled from the spec: the resampling policy of Pyro's
    [MCMC.get_samples], which is not in the repository and which the
    source leaves to the library.  Given the number of retained chain
    states, the number of requested draws and the generator, a policy
    picks positions of the retained chain. *)
Definition policy (G : Type) : Type := nat -> Z -> G -> list nat * G.

Definition index_select (t : tensor) (picked : list nat) : tensor :=
  map (fun i => nth i t 0%float) picked.

Definition select (d : sample_dict) (picked : list nat) : sample_dict :=
  map (fun kv => (fst kv, index_select (snd kv) picked)) d.

(** Modelled from the spec: Pyro's [MCMC.get_samples], which is not in
    the repository.  The reported sequence is resampled from the
    retained chain states: it holds the retained states at the positions
    the policy picks. *)
Definition get_samples {G : Type} (pol : policy G) (d : sample_dict)
    (n : Z) (g : G) : sample_dict * G :=
  let r := pol (length (draws_of_p d)) n g in
  (select d (fst r), snd r).

(** A library whose [get_samples] resamples by the given policy. *)
Definition positional (L : PyroLib) (pol : policy (@RNG L)) : PyroLib :=
  {| RNG := @RNG L;
     ParamStore := @ParamStore L;
     seed_rng := @seed_rng L;
     empty_store := @empty_store L;
     version := @version L;
     observations := @observations L;
     sampler := @sampler L;
     resample := get_samples pol |}.

(** Modelled from the spec: a policy that takes positions again, going
    round the chain as often as the requested number needs. *)
Definition cyclic {G : Type} : policy G :=
  fun kept n g =>
    (if Nat.eqb kept 0 then []
     else map (fun i => i mod kept) (seq 0 (Z.to_nat n)), g).

(** Modelled from the spec: a policy that takes no position twice, and
    so no more positions than the chain has. *)
Definition first_come {G : Type} : policy G :=
  fun kept n g => (seq 0 (Nat.min (Z.to_nat n) kept), g).

End Resampling.

(* ===================================================================== *)
(** * Executing computations *)
(* ===================================================================== *)

Section ExecFacts.

Context {Sg : signature} {W : Type} (h : handler Sg W).

Lemma exec_bind {A B : Type} (p : prog Sg A) (f : A -> prog Sg B) (w : W) :
  exec h (pbind p f) w = then_exec h (exec h p w) f.
Proof.
  revert w. induction p as [a | e | c k IH]; intros w; simpl.
  - unfold then_exec. simpl. destruct (exec h (f a) w). reflexivity.
  - reflexivity.
  - rewrite IH. unfold then_exec. simpl.
    destruct (result (exec h (k (fst (h c w))) (snd (h c w)))); reflexivity.
Qed.

Lemma exec_invoke (c : call Sg) (w : W) :
  exec h (invoke c) w =
  {| result := inr (fst (h c w)); final := snd (h c w); calls := [c] |}.
Proof. reflexivity. Qed.

(** A sequence whose first part returns [a]. *)
Lemma exec_bind_returns {A B : Type} (p : prog Sg A) (f : A -> prog Sg B)
    (w : W) (a : A) :
  result (exec h p w) = inr a ->
  exec h (pbind p f) w =
  {| result := result (exec h (f a) (final (exec h p w)));
     final := final (exec h (f a) (final (exec h p w)));
     calls := calls (exec h p w) ++
              calls (exec h (f a) (final (exec h p w))) |}.
Proof.
  intros Hres. rewrite exec_bind. unfold then_exec. rewrite Hres. reflexivity.
Qed.

(** A sequence whose first part raises. *)
Lemma exec_bind_raises {A B : Type} (p : prog Sg A) (f : A -> prog Sg B)
    (w : W) (e : exn) :
  result (exec h p w) = inl e ->
  exec h (pbind p f) w =
  {| result := inl e; final := final (exec h p w);
     calls := calls (exec h p w) |}.
Proof.
  intros Hres. rewrite exec_bind. unfold then_exec. rewrite Hres. reflexivity.
Qed.

End ExecFacts.

(* ===================================================================== *)
(** * The model *)
(* ===================================================================== *)

Section ModelFacts.

Context {W : Type} (h : handler pyro W).

Lemma for_each_cons {Sg : signature} (i : nat) (l : list nat)
    (body : nat -> prog Sg unit) :
  for_each (i :: l) body = pbind (body i) (fun _ => for_each l body).
Proof. reflexivity. Qed.

Lemma model_unfold (y : tensor) :
  model y =
  pbind (pyro_sample "p" (Uniform 0.0 1.0) None)
    (fun underlying_p => for_each (seq 0 (len y)) (loop_body y underlying_p)).
Proof. reflexivity. Qed.

(** One iteration at an index in range: one observed Bernoulli trial. *)
Lemma exec_loop_body (y : tensor) (p : float) (i : nat) (y_i : float)
    (w : W) :
  nth_error y i = Some y_i ->
  exec h (loop_body y p i) w =
  {| result := inr tt;
     final := snd (h (obs_site p (i, y_i)) w);
     calls := [obs_site p (i, y_i)] |}.
Proof.
  intros Hi. unfold loop_body, getitem. rewrite Hi. reflexivity.
Qed.

(** The loop of [model], started at index [length pre] with [rest] still
    to visit: it never indexes out of range and conditions one Bernoulli
    trial per remaining observation. *)
Lemma exec_observation_loop (p : float) (rest pre : tensor) (w : W) :
  let o := exec h
             (for_each (seq (length pre) (length rest))
                (loop_body (pre ++ rest) p)) w in
  result o = inr tt /\
  calls o = map (obs_site p) (combine (seq (length pre) (length rest)) rest).
Proof.
  revert pre w. induction rest as [| a rest IH]; intros pre w.
  - simpl. split; reflexivity.
  - assert (Hsplit : pre ++ a :: rest = (pre ++ [a]) ++ rest)
      by (rewrite <- app_assoc; reflexivity).
    assert (Hlen : S (length pre) = length (pre ++ [a]))
      by (rewrite length_app; simpl; lia).
    assert (Hhere : nth_error (pre ++ a :: rest) (length pre) = Some a)
      by (rewrite nth_error_app2 by lia; rewrite Nat.sub_diag; reflexivity).
    cbn [length seq combine map]. cbn zeta. rewrite for_each_cons.
    rewrite (exec_bind_returns h _ _ w tt)
      by (rewrite (exec_loop_body _ p _ a w Hhere); reflexivity).
    rewrite (exec_loop_body _ p _ a w Hhere). cbn [result final calls].
    rewrite Hsplit, Hlen.
    destruct (IH (pre ++ [a]) (snd (h (obs_site p (length pre, a)) w)))
      as [Hres Hcalls].
    cbn zeta in Hres, Hcalls. rewrite <- Hlen in *.
    split.
    + exact Hres.
    + rewrite Hcalls. reflexivity.
Qed.

Lemma exec_model (y : tensor) (w : W) :
  let p := fst (h prior_site w) in
  let o := exec h (model y) w in
  result o = inr tt /\
  calls o = prior_site :: map (obs_site p) (combine (seq 0 (len y)) y).
Proof.
  cbn zeta. rewrite model_unfold.
  rewrite (exec_bind_returns h _ _ w (fst (h prior_site w))) by reflexivity.
  destruct (exec_observation_loop (fst (h prior_site w)) y []
              (snd (h prior_site w))) as [Hres Hcalls].
  cbn zeta in Hres, Hcalls. cbn [app length] in Hres, Hcalls.
  unfold pyro_sample. rewrite exec_invoke. cbn [result final calls].
  fold prior_site. unfold len. split.
  - exact Hres.
  - rewrite Hcalls. reflexivity.
Qed.

End ModelFacts.

Lemma nth_error_indexed {A B : Type} (f : nat * A -> B) (l : list A)
    (k i : nat) (a : A) :
  nth_error l i = Some a ->
  nth_error (map f (combine (seq k (length l)) l)) i = Some (f (k + i, a)).
Proof.
  revert k i. induction l as [| x l IH]; intros k i Hi.
  - destruct i; discriminate.
  - destruct i as [| i]; simpl in *.
    + inversion Hi. rewrite Nat.add_0_r. reflexivity.
    + rewrite (IH (S k) i Hi). f_equal. f_equal. f_equal. lia.
Qed.

Lemma no_latent_observation (p : float) (l : list (nat * float)) :
  filter latent (map (obs_site p) l) = [].
Proof.
  induction l as [| iy l IH]; simpl; [reflexivity | exact IH].
Qed.

(** C1.  The model draws [p] once, from [Uniform(0,1)], and then, for an
    observation vector [y] of length [N >= 1], conditions for each index
    [i < N] one [Bernoulli(p)] trial on the observed value [y[i]]: the
    statements issued are the prior draw followed by the [N] observed
    trials in order, all carrying the value answered for [p], whatever
    is answered at the observed sites; the prior draw is the only latent
    site, and the model returns normally. *)
Theorem model_conditions_every_observation_on_one_p
    (W : Type) (h : handler pyro W) (w : W) (y : tensor) :
  1 <= len y ->
  let p := fst (h prior_site w) in
  let o := exec h (model y) w in
  result o = inr tt /\
  calls o = prior_site :: map (obs_site p) (combine (seq 0 (len y)) y) /\
  length (calls o) = S (len y) /\
  (forall i y_i, nth_error y i = Some y_i ->
     nth_error (calls o) (S i) =
     Some {| name := format "obs_" i; fn := Bernoulli p; obs := Some y_i |}) /\
  filter latent (calls o) = [{| name := "p"; fn := Uniform 0.0 1.0; obs := None |}].
Proof.
  intros _. cbn zeta.
  destruct (exec_model h y w) as [Hres Hcalls]. cbn zeta in Hres, Hcalls.
  rewrite Hcalls. repeat split.
  - exact Hres.
  - simpl. rewrite length_map, length_combine, length_seq.
    unfold len. rewrite Nat.min_id. reflexivity.
  - intros i y_i Hi. simpl.
    unfold len. rewrite (nth_error_indexed _ y 0 i y_i Hi). reflexivity.
  - simpl. rewrite no_latent_observation. reflexivity.
Qed.

Lemma model_conditions_every_observation_on_one_p_witness :
  1 <= len [1%float; 0%float] /\
  calls (exec (Reference.score 0.5%float) (model [1%float; 0%float]) 1%float) =
  [ {| name := "p"; fn := Uniform 0.0 1.0; obs := None |};
    {| name := "obs_0"; fn := Bernoulli 0.5; obs := Some 1%float |};
    {| name := "obs_1"; fn := Bernoulli 0.5; obs := Some 0%float |} ].
Proof.
  split.
  - unfold len. simpl. lia.
  - assert (Hlen : 1 <= len [1%float; 0%float]) by (unfold len; simpl; lia).
    exact (proj1 (proj2 (model_conditions_every_observation_on_one_p
                           float (Reference.score 0.5%float) 1%float
                           [1%float; 0%float] Hlen))).
Defined.

(* ===================================================================== *)
(** * The cells, executed against any library *)
(* ===================================================================== *)

Section CellFacts.

Context {L : PyroLib}.

Lemma run_seed_cell (w : process) :
  run seed_cell w =
  {| result := if String.prefix "1.5.0" version
               then inr tt else inl AssertionError;
     final := {| rng := seed_rng 102563;
                 param_store := param_store w;
                 retained := retained w |};
     calls := [pyro_set_rng_seed 102563; pyro_version] |}.
Proof.
  unfold run, seed_cell. cbn.
  destruct (String.prefix "1.5.0" version); reflexivity.
Qed.

Lemma run_data_cells (w : process) :
  run data_cells w =
  {| result := inr (fst (observations (rng w)));
     final := {| rng := snd (observations (rng w));
                 param_store := param_store w;
                 retained := retained w |};
     calls := [load_observations] |}.
Proof. reflexivity. Qed.

(** The inference cell: the store is cleared first, then the sampler is
    invoked on [y] with the kernel and counts as given; the cell raises
    nothing of its own. *)
Lemma run_inference_cell (step : float) (samples warmup : Z) (y : tensor)
    (w : process) :
  run (inference_cell step samples warmup y) w =
  {| result := inr (mcmc_of step samples warmup);
     final := after_sampling (mcmc_of step samples warmup) y (rng w);
     calls := [pyro_clear_param_store;
               mcmc_run (mcmc_of step samples warmup) y] |}.
Proof. reflexivity. Qed.

(** The analysis cell: the draws come from [get_samples]; plotting needs
    the site ["p"] in them. *)
Lemma run_analysis_cell (mcmc : MCMC) (requested : Z) (prob : float)
    (w : process) :
  let r := resample (retained w) requested (rng w) in
  let w' := {| rng := snd r; param_store := param_store w;
               retained := retained w |} in
  run (analysis_cell mcmc requested prob) w =
  match lookup "p" (fst r) with
  | Some p =>
      {| result := inr (fst r);
         final := w';
         calls := [mcmc_get_samples mcmc requested; plt_figure 10 7;
                   sns_distplot p "orange";
                   plt_xlabel "Observed probability value";
                   plt_ylabel "Observed frequency";
                   plt_show; mcmc_summary mcmc prob] |}
  | None =>
      {| result := inl KeyError;
         final := w';
         calls := [mcmc_get_samples mcmc requested; plt_figure 10 7] |}
  end.
Proof.
  cbn zeta. unfold run, analysis_cell, getkey. cbn.
  destruct (lookup "p" (fst (resample (retained w) requested (rng w))));
    reflexivity.
Qed.

Lemma run_estimator (cfg : config) (y : tensor) (w : process) :
  let mcmc := mcmc_of (cfg_step_size cfg) (cfg_num_samples cfg)
                (cfg_warmup_steps cfg) in
  let o := run (analysis_cell mcmc (cfg_requested cfg) (cfg_prob cfg))
             (after_sampling mcmc y (rng w)) in
  run (estimator cfg y) w =
  {| result := result o;
     final := final o;
     calls := [pyro_clear_param_store; mcmc_run mcmc y] ++ calls o |}.
Proof.
  cbn zeta. unfold run, estimator. cbn [bind Monad_prog].
  rewrite (exec_bind_returns (library L) _ _ w
             (mcmc_of (cfg_step_size cfg) (cfg_num_samples cfg)
                (cfg_warmup_steps cfg))).
  - fold (run (inference_cell (cfg_step_size cfg) (cfg_num_samples cfg)
                 (cfg_warmup_steps cfg) y) w).
    rewrite run_inference_cell. reflexivity.
  - reflexivity.
Qed.

(** Frame: a run of the estimator reads the process state through the
    generator only; the incoming parameter store and the draws retained
    by an earlier sampler object do not matter. *)
Lemma estimator_reads_rng_only (cfg : config) (y : tensor)
    (w1 w2 : process) :
  rng w1 = rng w2 ->
  run (estimator cfg y) w1 = run (estimator cfg y) w2.
Proof.
  intros Hrng. rewrite !run_estimator. cbn zeta. rewrite Hrng. reflexivity.
Qed.

Lemma estimator_never_seeds (cfg : config) (y : tensor) (w : process) :
  filter is_seed (calls (run (estimator cfg y) w)) = [].
Proof.
  rewrite run_estimator. cbn zeta. cbn [calls app filter is_seed].
  rewrite run_analysis_cell. cbn zeta.
  destruct (lookup "p" _); reflexivity.
Qed.

Lemma rerun_reads_rng_only {A : Type} (cells : nb A) (n : nat)
    (w1 w2 : process) :
  (forall v1 v2 : process, rng v1 = rng v2 -> run cells v1 = run cells v2) ->
  rng w1 = rng w2 ->
  result (run (rerun n cells) w1) = result (run (rerun n cells) w2).
Proof.
  intros Hframe Hrng. destruct n as [| n].
  - reflexivity.
  - unfold run. cbn [rerun bind Monad_prog]. rewrite !exec_bind.
    fold (run cells w1). fold (run cells w2).
    rewrite (Hframe w1 w2 Hrng). reflexivity.
Qed.

Lemma rerun_never_seeds {A : Type} (cells : nb A) (n : nat) :
  (forall v : process, filter is_seed (calls (run cells v)) = []) ->
  forall w : process, filter is_seed (calls (run (rerun n cells) w)) = [].
Proof.
  intros Hcells. induction n as [| n IH]; intros w.
  - reflexivity.
  - unfold run. cbn [rerun bind Monad_prog]. rewrite exec_bind.
    unfold then_exec. fold (run cells w).
    destruct (result (run cells w)) as [e | a]; cbn [calls].
    + apply Hcells.
    + rewrite filter_app, Hcells. cbn [app].
      rewrite exec_bind. unfold then_exec.
      fold (run (rerun n cells) (final (run cells w))).
      destruct (result (run (rerun n cells) (final (run cells w))));
        cbn [calls exec]; [| rewrite app_nil_r]; apply IH.
Qed.

End CellFacts.

Section SessionFacts.

Context {L : PyroLib}.

(** The seed and data cells followed by cells [k] that use the first
    correctness tensor: the shape of the notebook and of a session. *)
Lemma run_after_setup {A : Type} (k : tensor -> nb A) (w : process) :
  let y := fst (fst (observations (seed_rng 102563))) in
  let o := run (k y)
             {| rng := snd (observations (seed_rng 102563));
                param_store := param_store w;
                retained := retained w |} in
  run (pbind seed_cell
         (fun _ => pbind data_cells (fun data => k (fst data)))) w =
  if String.prefix "1.5.0" version
  then {| result := result o;
          final := final o;
          calls := [pyro_set_rng_seed 102563; pyro_version;
                    load_observations] ++ calls o |}
  else {| result := inl AssertionError;
          final := {| rng := seed_rng 102563;
                      param_store := param_store w;
                      retained := retained w |};
          calls := [pyro_set_rng_seed 102563; pyro_version] |}.
Proof.
  cbn zeta. unfold run at 1. rewrite exec_bind. fold (run seed_cell w).
  rewrite run_seed_cell. unfold then_exec. cbn [result final calls].
  destruct (String.prefix "1.5.0" version); [| reflexivity].
  rewrite exec_bind. unfold then_exec. reflexivity.
Qed.

Lemma notebook_shape :
  notebook =
  pbind seed_cell
    (fun _ => pbind data_cells
                (fun data => estimator notebook_config (fst data))).
Proof. reflexivity. Qed.

Lemma session_shape (cfg : config) (n : nat) :
  session cfg n =
  pbind seed_cell
    (fun _ => pbind data_cells
                (fun data => rerun n (estimator cfg (fst data)))).
Proof. reflexivity. Qed.

(** What a process computes after the seed cell does not depend on the
    state it started in, as long as the cells that follow read the
    generator only. *)
Lemma setup_forgets_start {A : Type} (k : tensor -> nb A)
    (w1 w2 : process) :
  (forall y (v1 v2 : process),
     rng v1 = rng v2 -> result (run (k y) v1) = result (run (k y) v2)) ->
  result (run (pbind seed_cell
                 (fun _ => pbind data_cells (fun data => k (fst data)))) w1) =
  result (run (pbind seed_cell
                 (fun _ => pbind data_cells (fun data => k (fst data)))) w2).
Proof.
  intros Hk. rewrite !run_after_setup. cbn zeta.
  destruct (String.prefix "1.5.0" version); cbn [result]; [| reflexivity].
  apply Hk. reflexivity.
Qed.

(** After the seed cell, cells that never seed leave exactly one seed
    call in the process, the first call of all. *)
Lemma setup_seeds_once {A : Type} (k : tensor -> nb A) (w : process) :
  (forall y (v : process), filter is_seed (calls (run (k y) v)) = []) ->
  let o := run (pbind seed_cell
                  (fun _ => pbind data_cells (fun data => k (fst data)))) w in
  hd_error (calls o) = Some (pyro_set_rng_seed 102563) /\
  filter is_seed (calls o) = [pyro_set_rng_seed 102563].
Proof.
  intros Hk. cbn zeta. rewrite run_after_setup. cbn zeta.
  destruct (String.prefix "1.5.0" version); cbn [calls]; split;
    try reflexivity.
  cbn [app filter is_seed]. rewrite Hk. reflexivity.
Qed.

End SessionFacts.

(* ===================================================================== *)
(** * Input checks *)
(* ===================================================================== *)

(** C2, as stated, fails: on the empty observation sequence, with the
    notebook's configuration, the estimator invokes the sampler and ends
    without an exception. *)
Lemma empty_observations_not_rejected :
  let o := @run Reference.lib _ (estimator notebook_config []) Reference.boot in
  sampler_invoked o = true /\ raised o = false.
Proof. vm_compute. split; reflexivity. Qed.

(** C2 (amended).  For the empty observation sequence the notebook
    raises no error of its own and checks nothing before sampling: the
    model makes the prior draw of [p] and no conditioned trial, and the
    inference cell clears the parameter store and then invokes the
    sampler on the empty sequence, whatever the library and the
    configuration. *)
Theorem empty_observations_reach_the_sampler
    (L : PyroLib) (W : Type) (h : handler pyro W) (s : W)
    (cfg : config) (w : process) :
  let mcmc := mcmc_of (cfg_step_size cfg) (cfg_num_samples cfg)
                (cfg_warmup_steps cfg) in
  let cell := run (inference_cell (cfg_step_size cfg) (cfg_num_samples cfg)
                     (cfg_warmup_steps cfg) []) w in
  (result (exec h (model []) s) = inr tt /\
   calls (exec h (model []) s) = [prior_site]) /\
  (result cell = inr mcmc /\
   calls cell = [pyro_clear_param_store; mcmc_run mcmc []]) /\
  sampler_invoked (run (estimator cfg []) w) = true.
Proof.
  cbn zeta. split; [| split].
  - split; reflexivity.
  - split; reflexivity.
  - rewrite run_estimator. reflexivity.
Qed.

(* ===================================================================== *)
(** * State: the parameter store and the random-number generator *)
(* ===================================================================== *)

(** C8, as stated, fails: an inference run leaves the process-global
    generator in another state than it found it. *)
Lemma inference_advances_the_generator :
  rng (final (@run Reference.lib _ (inference_cell 0.1%float 3%Z 2%Z y4)
                Reference.boot))
  <> rng Reference.boot.
Proof. vm_compute. discriminate. Qed.

(** C8 (amended).  An inference run clears the sampler's parameter store
    before it invokes the sampler, so the run does not depend on what
    the store or an earlier sampler object held; the observation vector
    is handed to the sampler as it is.  The run does modify state
    besides the store: it leaves the process-global random-number
    generator where the sampler left it, and the sampler object holds
    the retained draws. *)
Theorem inference_clears_store_and_advances_generator
    (L : PyroLib) (step : float) (samples warmup : Z) (y : tensor)
    (w : process) :
  let mcmc := mcmc_of step samples warmup in
  let left := sampler mcmc y (rng w) empty_store in
  let o := run (inference_cell step samples warmup y) w in
  calls o = [pyro_clear_param_store; mcmc_run mcmc y] /\
  final o = {| rng := snd (fst left);
               param_store := snd left;
               retained := fst (fst left) |} /\
  (forall store kept,
     run (inference_cell step samples warmup y)
       {| rng := rng w; param_store := store; retained := kept |} = o).
Proof.
  cbn zeta. split; [| split].
  - reflexivity.
  - reflexivity.
  - intros store kept. reflexivity.
Qed.

(** C5.  For a fixed random seed, step size, warm-up count and sample
    counts, two independent runs of the estimator on the same
    observation sequence produce identical posterior sample sequences:
    two processes, in whatever state, that fix the seed and then run the
    inference and analysis cells on [y] end with the same result; and
    so do two runs of the whole notebook. *)
Theorem fixed_seed_runs_agree
    (L : PyroLib) (rng_seed : Z) (cfg : config) (y : tensor)
    (w1 w2 : process) :
  result (run (seeded rng_seed (estimator cfg y)) w1) =
  result (run (seeded rng_seed (estimator cfg y)) w2) /\
  result (run notebook w1) = result (run notebook w2).
Proof.
  split.
  - unfold run, seeded. cbn [bind Monad_prog]. rewrite !exec_bind.
    unfold then_exec. rewrite !exec_invoke. cbn [result final calls].
    fold (run (estimator cfg y)
            (snd (library L (pyro_set_rng_seed rng_seed) w1))).
    fold (run (estimator cfg y)
            (snd (library L (pyro_set_rng_seed rng_seed) w2))).
    rewrite (estimator_reads_rng_only cfg y
               (snd (library L (pyro_set_rng_seed rng_seed) w1))
               (snd (library L (pyro_set_rng_seed rng_seed) w2)));
      reflexivity.
  - rewrite notebook_shape.
    apply (setup_forgets_start (estimator notebook_config)).
    intros y' v1 v2 Hrng.
    rewrite (estimator_reads_rng_only notebook_config y' v1 v2 Hrng).
    reflexivity.
Qed.

(** C10.  The random seed is fixed once, process-globally, to [102563],
    before any data loading or inference: it is the first call of the
    notebook and the only seeding call in it.  It is not a parameter of
    an estimator run: the inference and analysis cells never seed, so a
    process that runs them again issues still one seeding call, and the
    second run starts in the state the first one left, its generator
    being the one the first run's sampling and resampling advanced.
    Reproducibility is by position: two processes, whatever their
    initial state, agree run by run; within one process the first and
    the second run need not agree, as they do not for the reference
    library. *)
Theorem seed_is_fixed_once_per_process (L : PyroLib) (cfg : config) :
  (forall w : process,
     hd_error (calls (run notebook w)) = Some (pyro_set_rng_seed 102563) /\
     filter is_seed (calls (run notebook w)) = [pyro_set_rng_seed 102563]) /\
  (forall y (w : process),
     filter is_seed (calls (run (estimator cfg y) w)) = []) /\
  (forall n (w : process),
     filter is_seed (calls (run (session cfg n) w)) =
     [pyro_set_rng_seed 102563]) /\
  (forall y (w : process),
     let mcmc := mcmc_of (cfg_step_size cfg) (cfg_num_samples cfg)
                   (cfg_warmup_steps cfg) in
     let left := sampler mcmc y (rng w) empty_store in
     let first := run (estimator cfg y) w in
     let second := run (estimator cfg y) (final first) in
     rng (final first) =
       snd (resample (fst (fst left)) (cfg_requested cfg) (snd (fst left))) /\
     result (run (rerun 2 (estimator cfg y)) w) =
       match result first with
       | inl e => inl e
       | inr d1 =>
           match result second with
           | inl e => inl e
           | inr d2 => inr [d1; d2]
           end
       end) /\
  (forall n (w1 w2 : process),
     result (run (session cfg n) w1) = result (run (session cfg n) w2)) /\
  match result (@run Reference.lib _ (session Reference.small 2)
                  Reference.boot) with
  | inr [d1; d2] => same_draws (draws_of_p d1) (draws_of_p d2) = false
  | _ => False
  end.
Proof.
  split; [| split; [| split; [| split; [| split]]]].
  - intros w. rewrite notebook_shape.
    apply (setup_seeds_once (estimator notebook_config)).
    intros y v. apply estimator_never_seeds.
  - intros y w. apply estimator_never_seeds.
  - intros n w. rewrite session_shape.
    apply (setup_seeds_once (fun y => rerun n (estimator cfg y))).
    intros y v. apply rerun_never_seeds.
    intros v'. apply estimator_never_seeds.
  - intros y w. cbn zeta. split.
    + rewrite run_estimator. cbn zeta. cbn [final].
      rewrite run_analysis_cell. cbn zeta.
      destruct (lookup "p" _); reflexivity.
    + unfold run. cbn [rerun bind Monad_prog]. rewrite exec_bind.
      unfold then_exec.
      destruct (result (exec (library L) (estimator cfg y) w)) as [e | d1];
        [reflexivity |].
      rewrite exec_bind. unfold then_exec. rewrite exec_bind.
      unfold then_exec. cbn [result].
      destruct (result (exec (library L) (estimator cfg y)
                          (final (exec (library L) (estimator cfg y) w))))
        as [e | d2]; reflexivity.
  - intros n w1 w2. rewrite !session_shape.
    apply (setup_forgets_start (fun y => rerun n (estimator cfg y))).
    intros y v1 v2 Hrng.
    apply rerun_reads_rng_only; [| exact Hrng].
    intros u1 u2. apply estimator_reads_rng_only.
  - vm_compute. reflexivity.
Qed.

(* ===================================================================== *)
(** * Site names *)
(* ===================================================================== *)

(** Pyro identifies sample statements by name, so the names a model
    issues in one execution must differ. *)

Lemma format_injective (prefix : string) (i j : nat) :
  format prefix i = format prefix j -> i = j.
Proof.
  unfold format. intros H.
  assert (Hdigits : NilEmpty.string_of_uint (Nat.to_uint i) =
                    NilEmpty.string_of_uint (Nat.to_uint j)).
  { induction prefix as [| a prefix IH]; simpl in H.
    - exact H.
    - inversion H. apply IH. assumption. }
  apply (f_equal NilEmpty.uint_of_string) in Hdigits.
  rewrite !NilEmpty.usu in Hdigits. inversion Hdigits as [Huint].
  apply (f_equal Nat.of_uint) in Huint.
  rewrite !DecimalNat.Unsigned.of_to in Huint. exact Huint.
Qed.

Lemma indices_of_combine {A : Type} (l : list A) (k : nat) :
  map fst (combine (seq k (length l)) l) = seq k (length l).
Proof.
  revert k. induction l as [| a l IH]; intros k; simpl.
  - reflexivity.
  - rewrite IH. reflexivity.
Qed.

Lemma obs_names (p : float) (l : list (nat * float)) :
  map name (map (obs_site p) l) = map (format "obs_") (map fst l).
Proof.
  induction l as [| iy l IH]; simpl; [reflexivity | rewrite IH; reflexivity].
Qed.

(** X1.  In every execution of the model, whatever is answered at its
    sample statements, the statements carry pairwise distinct names:
    ["p"] and ["obs_0"], ["obs_1"], ... *)
Theorem model_site_names_are_distinct
    (W : Type) (h : handler pyro W) (w : W) (y : tensor) :
  NoDup (map name (calls (exec h (model y) w))).
Proof.
  destruct (exec_model h y w) as [_ Hcalls]. cbn zeta in Hcalls.
  rewrite Hcalls. cbn [map]. rewrite obs_names.
  unfold len. rewrite indices_of_combine.
  constructor.
  - intros Hin. apply in_map_iff in Hin. destruct Hin as [i [Hname _]].
    unfold format in Hname. simpl in Hname. discriminate Hname.
  - apply Injective_map_NoDup.
    + intros i j. apply format_injective.
    + apply seq_NoDup.
Qed.

(* ===================================================================== *)
(** * More on the model: growing and reordering the observations *)
(* ===================================================================== *)

Lemma combine_indices_app {A : Type} (y z : list A) (k : nat) :
  combine (seq k (length (y ++ z))) (y ++ z) =
  combine (seq k (length y)) y ++ combine (seq (k + length y) (length z)) z.
Proof.
  revert k. induction y as [| a y IH]; intros k.
  - simpl. rewrite Nat.add_0_r. reflexivity.
  - simpl. rewrite IH. f_equal. f_equal. f_equal. f_equal. lia.
Qed.

Lemma observed_values {B : Type} (g : float -> B) (y : tensor) (k : nat) :
  map (fun iy : nat * float => g (snd iy)) (combine (seq k (length y)) y) =
  map g y.
Proof.
  revert k. induction y as [| a y IH]; intros k; simpl.
  - reflexivity.
  - rewrite IH. reflexivity.
Qed.

Lemma model_payloads {W : Type} (h : handler pyro W) (w : W) (y : tensor) :
  map payload (calls (exec h (model y) w)) =
  (Uniform 0.0 1.0, None) ::
  map (fun v => (Bernoulli (fst (h prior_site w)), Some v)) y.
Proof.
  destruct (exec_model h y w) as [_ Hcalls]. cbn zeta in Hcalls.
  rewrite Hcalls. cbn [map]. f_equal.
  rewrite map_map. unfold len.
  apply (observed_values
           (fun v => (Bernoulli (fst (h prior_site w)), Some v)) y 0).
Qed.

(** X2.  Appending observations extends what the model does and changes
    nothing before: on [y ++ z] the model issues the statements it
    issues on [y], followed by one Bernoulli trial per element of [z],
    named from ["obs_<len y>"] on and carrying the same [p]. *)
Theorem model_on_appended_observations
    (W : Type) (h : handler pyro W) (w : W) (y z : tensor) :
  calls (exec h (model (y ++ z)) w) =
  calls (exec h (model y) w) ++
  map (obs_site (fst (h prior_site w))) (combine (seq (len y) (len z)) z).
Proof.
  destruct (exec_model h (y ++ z) w) as [_ Happ].
  destruct (exec_model h y w) as [_ Hy].
  cbn zeta in Happ, Hy. rewrite Happ, Hy. unfold len.
  rewrite combine_indices_app, map_app. reflexivity.
Qed.

(** X3.  The order of the observations matters to the names of the
    statements only: for a permutation of the observation vector the
    model issues, names apart, a permutation of the same statements,
    each Bernoulli trial with the same [p] and the same observed
    value. *)
Theorem model_statements_follow_permutation
    (W : Type) (h : handler pyro W) (w : W) (y y' : tensor) :
  Permutation y y' ->
  Permutation (map payload (calls (exec h (model y) w)))
              (map payload (calls (exec h (model y') w))).
Proof.
  intros Hperm. rewrite !model_payloads.
  apply perm_skip. apply Permutation_map. exact Hperm.
Qed.

Lemma model_statements_follow_permutation_witness :
  Permutation
    (map payload (calls (exec (Reference.score 0.5%float)
                           (model [1%float; 0%float]) 1%float)))
    (map payload (calls (exec (Reference.score 0.5%float)
                           (model [0%float; 1%float]) 1%float))).
Proof.
  apply (model_statements_follow_permutation float
           (Reference.score 0.5%float) 1%float
           [1%float; 0%float] [0%float; 1%float]).
  apply perm_swap.
Defined.

(* ===================================================================== *)
(** * How the cells end *)
(* ===================================================================== *)

(** X4.  The version assertion gates the notebook.  With a Pyro whose
    version does not start with ["1.5.0"] the notebook ends in
    [AssertionError] right after seeding: no data is loaded and the
    sampler is not invoked.  Otherwise the sampler is invoked exactly
    once, with the HMC kernel of [model] at step size [0.1], [100]
    samples and [100] warm-up steps, on the first of the two correctness
    tensors; the notebook then ends neither in [AssertionError] nor in
    [IndexError]. *)
Theorem notebook_stops_at_version_or_samples_once
    (L : PyroLib) (w : process) :
  let correctness_values_100 := fst (fst (observations (seed_rng 102563))) in
  let o := run notebook w in
  (String.prefix "1.5.0" version = false ->
     result o = inl AssertionError /\
     calls o = [pyro_set_rng_seed 102563; pyro_version]) /\
  (String.prefix "1.5.0" version = true ->
     filter is_run (calls o) =
       [mcmc_run (mcmc_of 0.1 100 100) correctness_values_100] /\
     hd_error (skipn 2 (calls o)) = Some load_observations /\
     result o <> inl AssertionError /\
     result o <> inl IndexError).
Proof.
  cbn zeta. rewrite notebook_shape, run_after_setup. cbn zeta.
  destruct (String.prefix "1.5.0" version); split; intros Hv;
    try discriminate Hv.
  - cbn [result calls app].
    rewrite run_estimator. cbn zeta. cbn [result calls app].
    rewrite run_analysis_cell. cbn zeta.
    destruct (lookup "p" _); cbn [result calls];
      (split; [reflexivity | split; [reflexivity | split; discriminate]]).
  - split; reflexivity.
Qed.

(* ===================================================================== *)
(** * The observations cell *)
(* ===================================================================== *)

Section ObservationFacts.

Context {features : Type} (my_tree : features -> label).

Lemma array_eq_aligned (X : list features) (y : list label) :
  length X = length y ->
  array_eq (predict features my_tree X) y =
  Some (map (correct features my_tree) (combine X y)).
Proof.
  intros Hlen. unfold array_eq, predict.
  rewrite length_map, Hlen, Nat.eqb_refl. f_equal.
  clear Hlen. revert y. induction X as [| x X IH]; intros [| v y]; simpl;
    try reflexivity.
  rewrite IH. reflexivity.
Qed.

Lemma from_numpy_float_indicator (l : list (features * label)) :
  from_numpy_float (map (correct features my_tree) l) =
  map (indicator features my_tree) l.
Proof.
  unfold from_numpy_float. rewrite map_map. reflexivity.
Qed.

Lemma indicator_binary (l : list (features * label)) :
  Forall (fun v : float => v = 1%float \/ v = 0%float)
    (map (indicator features my_tree) l).
Proof.
  induction l as [| e l IH]; simpl; constructor.
  - unfold indicator. destruct (String.eqb _ _); [left | right]; reflexivity.
  - exact IH.
Qed.

Lemma successes_are_correct_predictions (p : float)
    (l : list (features * label)) (k : nat) :
  length (filter is_success
            (map (obs_site p)
               (combine (seq k (length l))
                  (map (indicator features my_tree) l)))) =
  length (filter (correct features my_tree) l).
Proof.
  revert k. induction l as [| e l IH]; intros k.
  - reflexivity.
  - specialize (IH (S k)). simpl.
    unfold is_success at 1, indicator at 1, correct at 1. simpl.
    destruct (String.eqb (my_tree (fst e)) (snd e)).
    + change (PrimFloat.eqb 1 1) with true. simpl. rewrite IH.
      reflexivity.
    + change (PrimFloat.eqb 0 1) with false. exact IH.
Qed.

Lemma define_observations_aligned
    (X_100_test : list features) (y_100_test : list label)
    (X_test : list features) (y_test : list label) :
  length X_100_test = length y_100_test ->
  length X_test = length y_test ->
  define_observations features my_tree X_100_test y_100_test X_test y_test =
  Some (map (indicator features my_tree) (combine X_100_test y_100_test),
        map (indicator features my_tree) (combine X_test y_test)).
Proof.
  intros H100 Hall. unfold define_observations.
  rewrite (array_eq_aligned X_100_test y_100_test H100).
  rewrite (array_eq_aligned X_test y_test Hall).
  rewrite !from_numpy_float_indicator. reflexivity.
Qed.

End ObservationFacts.

(** X6.  When each array of predictions has as many entries as its
    labels, the observations cell yields the two correctness tensors:
    each is as long as its test set, holds only [0.0] and [1.0], and has
    [1.0] at exactly the positions where the classifier's prediction for
    the example equals the label. *)
Theorem observations_are_aligned_indicators
    (features : Type) (my_tree : features -> label)
    (X_100_test : list features) (y_100_test : list label)
    (X_test : list features) (y_test : list label) :
  length X_100_test = length y_100_test ->
  length X_test = length y_test ->
  let correctness_values_100 :=
    map (indicator features my_tree) (combine X_100_test y_100_test) in
  let correctness_values :=
    map (indicator features my_tree) (combine X_test y_test) in
  define_observations features my_tree X_100_test y_100_test X_test y_test =
    Some (correctness_values_100, correctness_values) /\
  (len correctness_values_100 = length y_100_test /\
   len correctness_values = length y_test) /\
  (Forall (fun v : float => v = 1%float \/ v = 0%float) correctness_values_100 /\
   Forall (fun v : float => v = 1%float \/ v = 0%float) correctness_values).
Proof.
  intros H100 Hall. cbn zeta. split; [| split].
  - apply define_observations_aligned; assumption.
  - unfold len. rewrite !length_map, !length_combine. lia.
  - split; apply indicator_binary.
Qed.

Lemma observations_are_aligned_indicators_witness :
  define_observations nat
    (fun x => if Nat.even x then "0" else "1")
    [2; 3; 4] ["0"; "0"; "0"] [2; 3] ["0"; "1"] =
  Some ([1%float; 0%float; 1%float], [1%float; 1%float]).
Proof.
  exact (proj1 (observations_are_aligned_indicators nat
                  (fun x => if Nat.even x then "0" else "1")
                  [2; 3; 4] ["0"; "0"; "0"] [2; 3] ["0"; "1"]
                  eq_refl eq_refl)).
Defined.

(** X8.  From classifier to likelihood: run on the first correctness
    tensor of the observations cell, the model conditions one Bernoulli
    trial per test example, on [1.0] where the classifier's prediction
    equals the label and on [0.0] elsewhere; so it is conditioned on as
    many successes as the classifier has correct predictions. *)
Theorem model_is_conditioned_on_correct_predictions
    (features : Type) (my_tree : features -> label)
    (X_100_test : list features) (y_100_test : list label)
    (X_test : list features) (y_test : list label)
    (W : Type) (h : handler pyro W) (w : W) :
  length X_100_test = length y_100_test ->
  length X_test = length y_test ->
  exists correctness_values_100 correctness_values,
    define_observations features my_tree X_100_test y_100_test X_test y_test =
      Some (correctness_values_100, correctness_values) /\
    map obs (calls (exec h (model correctness_values_100) w)) =
      None :: map (fun example => Some (indicator features my_tree example))
                (combine X_100_test y_100_test) /\
    length (filter is_success (calls (exec h (model correctness_values_100) w))) =
      length (filter (correct features my_tree)
                (combine X_100_test y_100_test)).
Proof.
  intros H100 Hall.
  eexists. eexists.
  split; [apply define_observations_aligned; assumption |].
  destruct (exec_model h
              (map (indicator features my_tree)
                 (combine X_100_test y_100_test)) w) as [_ Hcalls].
  cbn zeta in Hcalls. rewrite Hcalls. split.
  - cbn [map obs prior_site]. f_equal. rewrite map_map. unfold len.
    rewrite (observed_values (fun v => Some v)). rewrite map_map.
    reflexivity.
  - cbn [filter is_success obs prior_site]. unfold len. rewrite length_map.
    apply successes_are_correct_predictions.
Qed.

Lemma model_is_conditioned_on_correct_predictions_witness :
  exists correctness_values_100 correctness_values,
    define_observations nat (fun x => if Nat.even x then "0" else "1")
      [2; 3; 4] ["0"; "0"; "0"] [2; 3] ["0"; "1"] =
      Some (correctness_values_100, correctness_values) /\
    map obs (calls (exec (Reference.score 0.5%float)
                      (model correctness_values_100) 1%float)) =
      None :: map (fun example =>
                     Some (indicator nat
                             (fun x => if Nat.even x then "0" else "1")
                             example))
                (combine [2; 3; 4] ["0"; "0"; "0"]) /\
    length (filter is_success
              (calls (exec (Reference.score 0.5%float)
                        (model correctness_values_100) 1%float))) =
      length (filter (correct nat (fun x => if Nat.even x then "0" else "1"))
                (combine [2; 3; 4] ["0"; "0"; "0"])).
Proof.
  exact (model_is_conditioned_on_correct_predictions nat
           (fun x => if Nat.even x then "0" else "1")
           [2; 3; 4] ["0"; "0"; "0"] [2; 3] ["0"; "1"]
           float (Reference.score 0.5%float) 1%float eq_refl eq_refl).
Defined.

(* ===================================================================== *)
(** * The cells against a library whose calls may fail *)
(* ===================================================================== *)

(** C7, as stated, fails: with [0] warm-up steps and with [-1] warm-up
    steps the inference cell invokes the sampler and ends without an
    exception. *)
Lemma invalid_warmup_not_rejected :
  let cell warmup :=
    @run Reference.lib _ (inference_cell 0.1%float 3%Z warmup y4)
      Reference.boot in
  (sampler_invoked (cell 0%Z) = true /\ raised (cell 0%Z) = false) /\
  (sampler_invoked (cell (-1)%Z) = true /\ raised (cell (-1)%Z) = false).
Proof. vm_compute. repeat split; reflexivity. Qed.

(** C7 (amended).  The notebook validates neither the step size nor the
    warm-up count nor the sample counts.  Whatever their values and
    whatever the library does, the inference cell raises no error of its
    own: it asks for the parameter store to be cleared and, unless that
    call fails, invokes the sampler with the values unchanged in the
    kernel and sampler objects, nothing else coming before; a value is
    rejected, if at all, by the library inside that call.  The analysis
    cell begins by requesting the given number of draws.  The values the
    notebook itself writes are positive: [0.1], [100], [100] and
    [5000]. *)
Theorem configuration_reaches_the_sampler_unchecked
    (W : Type) (h : Fallible.handler libs W) (w : W)
    (step : float) (samples warmup requested : Z) (prob : float)
    (y : tensor) :
  let mcmc := {| kernel := {| hmc_model := model; step_size := step |};
                 num_samples := samples;
                 warmup_steps := warmup |} in
  let o := Fallible.exec h (inference_cell step samples warmup y) w in
  match fst (h pyro_clear_param_store w) with
  | None =>
      Fallible.ended o = Fallible.Failed (Sg := libs) pyro_clear_param_store /\
      Fallible.issued o = [pyro_clear_param_store]
  | Some _ =>
      Fallible.issued o = [pyro_clear_param_store; mcmc_run mcmc y] /\
      (Fallible.ended o = Fallible.Returned mcmc \/
       Fallible.ended o = Fallible.Failed (Sg := libs) (mcmc_run mcmc y))
  end /\
  (forall e, Fallible.ended o <> Fallible.Raised e) /\
  hd_error (Fallible.issued
              (Fallible.exec h (analysis_cell mcmc requested prob) w)) =
    Some (mcmc_get_samples mcmc requested) /\
  (PrimFloat.ltb 0 (cfg_step_size notebook_config) = true /\
   (0 < cfg_num_samples notebook_config)%Z /\
   (0 < cfg_warmup_steps notebook_config)%Z /\
   (0 < cfg_requested notebook_config)%Z).
Proof.
  cbn zeta. unfold inference_cell, analysis_cell. cbn.
  split; [| split; [| split]].
  - destruct (h pyro_clear_param_store w) as [[r |] w1]; cbn.
    + match goal with
      | |- context [h (mcmc_run ?m y) w1] =>
          destruct (h (mcmc_run m y) w1) as [[r' |] w2]
      end; cbn; split; auto.
    + split; reflexivity.
  - intros e.
    destruct (h pyro_clear_param_store w) as [[r |] w1]; cbn;
      [| discriminate].
    match goal with
    | |- context [h (mcmc_run ?m y) w1] =>
        destruct (h (mcmc_run m y) w1) as [[r' |] w2]
    end; cbn; discriminate.
  - match goal with
    | |- context [h (mcmc_get_samples ?m requested) w] =>
        destruct (h (mcmc_get_samples m requested) w) as [[d |] w1]
    end; reflexivity.
  - repeat split.
Qed.

(** X5.  Whatever the library does, one run of the inference and
    analysis cells ends in one of three ways.  It returns the draws
    [get_samples] replied, and then these hold the site ["p"], the nine
    calls were made in order, the histogram was drawn from exactly that
    entry, and the summary was requested last, of the sampler object
    that was run.  Or one of the cells' own statements raises, and then
    it is [KeyError] because the draws lack ["p"], after the figure was
    opened, with nothing plotted and no summary requested.  Or a library
    call fails, and then it is the last call made. *)
Theorem estimator_ends_in_draws_key_error_or_library_failure
    (W : Type) (h : Fallible.handler libs W) (w : W)
    (cfg : config) (y : tensor) :
  let mcmc := mcmc_of (cfg_step_size cfg) (cfg_num_samples cfg)
                (cfg_warmup_steps cfg) in
  let o := Fallible.exec h (estimator cfg y) w in
  match Fallible.ended o with
  | Fallible.Returned d =>
      (exists v, fst (h (mcmc_get_samples mcmc (cfg_requested cfg)) v) =
                 Some d) /\
      exists p,
        lookup "p" d = Some p /\
        Fallible.issued o =
        [pyro_clear_param_store; mcmc_run mcmc y;
         mcmc_get_samples mcmc (cfg_requested cfg); plt_figure 10 7;
         sns_distplot p "orange";
         plt_xlabel "Observed probability value";
         plt_ylabel "Observed frequency";
         plt_show; mcmc_summary mcmc (cfg_prob cfg)]
  | Fallible.Raised e =>
      e = KeyError /\
      Fallible.issued o =
      [pyro_clear_param_store; mcmc_run mcmc y;
       mcmc_get_samples mcmc (cfg_requested cfg); plt_figure 10 7]
  | Fallible.Failed c =>
      exists before, Fallible.issued o = before ++ [c]
  end.
Proof.
  cbn zeta. unfold estimator, inference_cell, analysis_cell, getkey, mcmc_of.
  cbn.
  destruct (h pyro_clear_param_store w) as [[r1 |] v1] eqn:E1; cbn;
    [| exists []; reflexivity].
  match goal with
  | |- context [h (mcmc_run ?m y) v1] =>
      destruct (h (mcmc_run m y) v1) as [[r2 |] v2] eqn:E2; cbn;
      [| exists [pyro_clear_param_store]; reflexivity]
  end.
  match goal with
  | |- context [h (mcmc_get_samples ?m ?n) v2] =>
      destruct (h (mcmc_get_samples m n) v2) as [[d |] v3] eqn:E3; cbn;
      [| eexists [_; _]; reflexivity]
  end.
  match goal with
  | |- context [h (plt_figure ?a ?b) v3] =>
      destruct (h (plt_figure a b) v3) as [[r4 |] v4] eqn:E4; cbn;
      [| eexists [_; _; _]; reflexivity]
  end.
  destruct (lookup "p" d) as [p |] eqn:Hp; cbn; [| split; reflexivity].
  match goal with
  | |- context [h (sns_distplot ?a ?b) v4] =>
      destruct (h (sns_distplot a b) v4) as [[r5 |] v5] eqn:E5; cbn;
      [| eexists [_; _; _; _]; reflexivity]
  end.
  match goal with
  | |- context [h (plt_xlabel ?a) v5] =>
      destruct (h (plt_xlabel a) v5) as [[r6 |] v6] eqn:E6; cbn;
      [| eexists [_; _; _; _; _]; reflexivity]
  end.
  match goal with
  | |- context [h (plt_ylabel ?a) v6] =>
      destruct (h (plt_ylabel a) v6) as [[r7 |] v7] eqn:E7; cbn;
      [| eexists [_; _; _; _; _; _]; reflexivity]
  end.
  destruct (h plt_show v7) as [[r8 |] v8] eqn:E8; cbn;
    [| eexists [_; _; _; _; _; _; _]; reflexivity].
  match goal with
  | |- context [h (mcmc_summary ?a ?b) v8] =>
      destruct (h (mcmc_summary a b) v8) as [[r9 |] v9] eqn:E9; cbn;
      [| eexists [_; _; _; _; _; _; _; _]; reflexivity]
  end.
  split.
  - exists v2. rewrite E3. reflexivity.
  - exists p. split; [exact Hp | reflexivity].
Qed.

(* ===================================================================== *)
(** * Requested draws and chain length *)
(* ===================================================================== *)

Section ResamplingFacts.

Import Resampling.

Lemma lookup_select (key : string) (d : sample_dict) (picked : list nat) :
  lookup key (select d picked) =
  match lookup key d with
  | Some t => Some (index_select t picked)
  | None => None
  end.
Proof.
  induction d as [| [k t] d IH]; simpl.
  - reflexivity.
  - destruct (String.eqb key k); [reflexivity | exact IH].
Qed.

Lemma draws_of_p_select (d : sample_dict) (picked : list nat) :
  Forall (fun i => i < length (draws_of_p d)) picked ->
  draws_of_p (select d picked) = index_select (draws_of_p d) picked.
Proof.
  intros Hrange. unfold draws_of_p in *. rewrite lookup_select.
  destruct (lookup "p" d) as [t |]; [reflexivity |].
  destruct picked as [| i picked]; [reflexivity |].
  inversion Hrange as [| ? ? Hi _]. simpl in Hi. lia.
Qed.

Lemma index_select_from (t : tensor) (picked : list nat) :
  Forall (fun i => i < length t) picked ->
  Forall (fun v => In v t) (index_select t picked).
Proof.
  intros Hrange. unfold index_select. apply Forall_map.
  apply (Forall_impl _ (P := fun i => i < length t)); [| exact Hrange].
  intros i Hi. apply nth_In. exact Hi.
Qed.

(** Positions without repetition are no more than the chain has. *)
Lemma distinct_positions_bounded (kept : nat) (picked : list nat) :
  Forall (fun i => i < kept) picked ->
  NoDup picked -> length picked <= kept.
Proof.
  intros Hrange Hnodup.
  assert (Hle : length picked <= length (seq 0 kept)).
  { apply NoDup_incl_length; [exact Hnodup |].
    intros i Hi. apply in_seq.
    rewrite Forall_forall in Hrange. specialize (Hrange i Hi). lia. }
  rewrite length_seq in Hle. exact Hle.
Qed.

Lemma cyclic_in_range {G : Type} (kept : nat) (n : Z) (g : G) :
  Forall (fun i => i < kept) (fst (cyclic kept n g)).
Proof.
  unfold cyclic. cbn [fst].
  destruct (Nat.eqb_spec kept 0) as [Hzero | Hpos]; [constructor |].
  apply Forall_map. apply Forall_forall. intros i _.
  apply Nat.mod_upper_bound. exact Hpos.
Qed.

Lemma cyclic_delivers {G : Type} (kept : nat) (n : Z) (g : G) :
  0 < kept -> length (fst (cyclic kept n g)) = Z.to_nat n.
Proof.
  intros Hpos. unfold cyclic. cbn [fst].
  destruct (Nat.eqb_spec kept 0) as [Hzero | _]; [lia |].
  rewrite length_map, length_seq. reflexivity.
Qed.

Lemma first_come_in_range {G : Type} (kept : nat) (n : Z) (g : G) :
  Forall (fun i => i < kept) (fst (first_come kept n g)).
Proof.
  unfold first_come. cbn [fst]. apply Forall_forall. intros i Hi.
  apply in_seq in Hi. lia.
Qed.

End ResamplingFacts.

(** C4.  The number of posterior draws requested for analysis ([5000] in
    the notebook) is independent of the number of MCMC iterations that
    produced the chain ([100] warm-up plus [100] retained): the sampler
    is built and run without it, and the retained chain is the same for
    every requested count.  With [get_samples] resampling by a policy
    that picks positions of the retained chain, the reported sequence
    holds the retained states at the picked positions, so every reported
    draw is a retained state.  Whether draws repeat is the policy's
    matter: picking more positions than the chain has states takes some
    position again, and a policy that takes none twice delivers no more
    draws than the chain has states; going round the chain delivers the
    requested number and repeats once that exceeds the chain, taking
    first come never repeats and delivers the smaller of the two
    numbers. *)
Theorem requested_draws_are_positions_of_the_retained_chain
    (L : PyroLib) (pol : Resampling.policy (@RNG L))
    (cfg : config) (y : tensor)
    (w : @process (Resampling.positional L pol)) :
  (forall kept n g, Forall (fun i => i < kept) (fst (pol kept n g))) ->
  let mcmc := mcmc_of (cfg_step_size cfg) (cfg_num_samples cfg)
                (cfg_warmup_steps cfg) in
  let left := @sampler L mcmc y (rng w) (@empty_store L) in
  let chain := fst (fst left) in
  let picked := fst (pol (length (draws_of_p chain)) (cfg_requested cfg)
                       (snd (fst left))) in
  let reported := Resampling.select chain picked in
  let o := @run (Resampling.positional L pol) _ (estimator cfg y) w in
  (filter is_run (calls o) = [mcmc_run mcmc y] /\
   retained (final o) = chain /\
   (forall requested' : Z,
      retained (final (@run (Resampling.positional L pol) _
                         (estimator (with_requested cfg requested') y) w)) =
      chain)) /\
  (result o = match lookup "p" reported with
              | Some _ => inr reported
              | None => inl KeyError
              end /\
   draws_of_p reported =
     Resampling.index_select (draws_of_p chain) picked /\
   Forall (fun v => In v (draws_of_p chain)) (draws_of_p reported)) /\
  ((length (draws_of_p chain) < length picked -> ~ NoDup picked) /\
   (NoDup picked -> length picked <= length (draws_of_p chain))) /\
  (forall (G : Type) (kept : nat) (n : Z) (g : G),
     (0 < kept ->
      length (fst (Resampling.cyclic kept n g)) = Z.to_nat n /\
      (kept < Z.to_nat n -> ~ NoDup (fst (Resampling.cyclic kept n g)))) /\
     NoDup (fst (Resampling.first_come kept n g)) /\
     length (fst (Resampling.first_come kept n g)) =
       Nat.min (Z.to_nat n) kept) /\
  (cfg_requested notebook_config = 5000 /\
   cfg_num_samples notebook_config = 100 /\
   cfg_warmup_steps notebook_config = 100)%Z.
Proof.
  intros Hrange. cbn zeta.
  set (mcmc := mcmc_of (cfg_step_size cfg) (cfg_num_samples cfg)
                 (cfg_warmup_steps cfg)).
  set (left := @sampler L mcmc y (rng w) (@empty_store L)).
  set (chain := fst (fst left)).
  set (picked := fst (pol (length (draws_of_p chain)) (cfg_requested cfg)
                        (snd (fst left)))).
  assert (Hpicked : Forall (fun i => i < length (draws_of_p chain)) picked)
    by apply Hrange.
  assert (Hkept : forall requested' : Z,
            retained (final (@run (Resampling.positional L pol) _
                               (estimator (with_requested cfg requested') y) w)) =
            chain).
  { intros requested'. rewrite run_estimator. cbn zeta. cbn [final].
    rewrite run_analysis_cell. cbn zeta.
    destruct (lookup "p" _); reflexivity. }
  split; [| split; [| split; [| split]]].
  - split; [| split].
    + rewrite run_estimator. cbn zeta. cbn [calls app filter is_run].
      rewrite run_analysis_cell. cbn zeta.
      destruct (lookup "p" _); reflexivity.
    + rewrite run_estimator. cbn zeta. cbn [final].
      rewrite run_analysis_cell. cbn zeta.
      destruct (lookup "p" _); reflexivity.
    + exact Hkept.
  - split; [| split].
    + rewrite run_estimator. cbn zeta. cbn [result].
      rewrite run_analysis_cell. cbn zeta.
      match goal with
      | |- context [lookup "p" ?d] =>
          change d with (Resampling.select chain picked)
      end.
      destruct (lookup "p" (Resampling.select chain picked)); reflexivity.
    + apply draws_of_p_select. exact Hpicked.
    + rewrite draws_of_p_select by exact Hpicked.
      apply index_select_from. exact Hpicked.
  - split.
    + intros Hmore Hnodup.
      pose proof (distinct_positions_bounded _ _ Hpicked Hnodup). lia.
    + apply distinct_positions_bounded. exact Hpicked.
  - intros G kept n g. split; [| split].
    + intros Hpos. split.
      * apply cyclic_delivers. exact Hpos.
      * intros Hmore Hnodup.
        pose proof (distinct_positions_bounded _ _
                      (cyclic_in_range kept n g) Hnodup) as Hle.
        rewrite (cyclic_delivers kept n g Hpos) in Hle. lia.
    + unfold Resampling.first_come. cbn [fst]. apply seq_NoDup.
    + unfold Resampling.first_come. cbn [fst]. apply length_seq.
  - repeat split.
Qed.

Lemma requested_draws_are_positions_of_the_retained_chain_witness :
  (forall (kept : nat) (n : Z) (g : @RNG Reference.lib),
     Forall (fun i => i < kept) (fst (Resampling.cyclic kept n g))) /\
  (cfg_requested notebook_config = 5000 /\
   cfg_num_samples notebook_config = 100 /\
   cfg_warmup_steps notebook_config = 100)%Z.
Proof.
  split.
  - intros kept n g. apply cyclic_in_range.
  - exact (proj2 (proj2 (proj2 (proj2
             (requested_draws_are_positions_of_the_retained_chain
                Reference.lib Resampling.cyclic notebook_config y4
                (@Build_process
                   (Resampling.positional Reference.lib Resampling.cyclic)
                   7%Z [] [])
                (fun kept n g => cyclic_in_range kept n g)))))).
Defined.
